(** * VGG-16 feature extraction on OCT2017: a shallow embedding of the notebook

    The notebook [VGG16_FeatureExtraction_OCT2017_Retina_Kaggle] adapts a
    pretrained VGG-16, fine-tunes it and evaluates it.  This file embeds
    its code cells as Rocq functions and proves properties of them.

    Conventions.
    - The deep-learning framework is an interface ([Torch]): tensors,
      the network function, gradients and the random generator are
      abstract; the notebook's control flow around them is explicit.
    - Python floats are read as exact rationals ([Q]).
    - Console output and framework calls are recorded as a trace of
      [event]s; a cell or function is a computation in the monad [M]
      (generator state, trace, Python exceptions). *)

From Stdlib Require Import QArith ZArith Lia ZifyNat.
From stdpp Require Import base list gmap strings.

Local Open Scope nat_scope.

#[local] Arguments Nat.div : simpl never.
#[local] Arguments Nat.modulo : simpl never.

(** ** Python values, exceptions and results *)

Inductive pyval : Type :=
| PyNone
| PyBool (b : bool)
| PyInt (z : Z)
| PyFloat (q : Q)
| PyPair (a b : pyval).

Inductive exn : Type :=
| ZeroDivisionError
| IndexError
| AttributeError
| RuntimeError.

Inductive result (A : Type) : Type :=
| Ok (a : A)
| Raise (e : exn).
Arguments Ok {A} a.
Arguments Raise {A} e.

(** ** The trace of observable effects *)

Inductive event : Type :=
| Print (line : string)
| PrintEpoch (epoch num_epochs : nat)
| PrintResult (epoch : nat)
| PrintBatch (phase : string) (i : nat) (total : Q)
| PrintMetric (label : string) (value : Q)
| PrintElapsed (what : string)
| PrintInt (n : Z)
| PrintModel (classifier_widths : list (Z * Z))
| ZeroGrad
| Forward (training volatile : bool) (batch_size : nat)
| Backward
| Step
| EmptyCache
| ShowDatabatch (n_images : nat) (title : list string).

(** ** The framework interface *)

Class Torch : Type := {
  tensor : Type;
  image : Type;
  logits : Type;
  rng : Type;
  (** [torch.randperm]: the order a shuffling loader draws for one pass *)
  randperm : rng -> nat -> list nat * rng;
  randperm_perm : forall g n, Permutation (randperm g n).1 (seq 0 n);
  (** the network in evaluation mode: batch norm uses its running
      statistics and dropout is the identity, so one output row depends on
      its own input only *)
  net_eval : list tensor -> image -> logits;
  (** the network in training mode: batch statistics and dropout masks *)
  net_train : list tensor -> rng -> list image -> list logits;
  (** the running statistics a training-mode forward pass writes back *)
  bn_update : list tensor -> list image -> nat -> tensor -> tensor;
  dropout_advance : rng -> rng;
  (** [torch.max(outputs, 1)] indices, and the per-row cross entropy *)
  argmax : logits -> nat;
  nll : logits -> nat -> Q;
  (** gradient of the batch loss with respect to the i-th parameter, for
      a forward pass in the given mode *)
  autograd :
    bool -> list tensor -> rng -> list image -> list nat -> nat -> tensor;
  tensor_add : tensor -> tensor -> tensor;
  zeros_like : tensor -> tensor;
  (** [nn.Linear(in, out)] draws its initial weight and bias *)
  linear_init : rng -> Z -> Z -> tensor * tensor * rng
}.

(** ** The monad of notebook computations *)

Section Monad.
Context `{Torch}.

Definition M (A : Type) : Type := rng -> list event * result (A * rng).

Definition ret {A} (a : A) : M A := fun g => ([], Ok (a, g)).

Definition bind {A B} (m : M A) (f : A -> M B) : M B :=
  fun g =>
    match m g with
    | (l1, Ok (a, g1)) =>
        match f a g1 with
        | (l2, r) => (l1 ++ l2, r)
        end
    | (l1, Raise e) => (l1, Raise e)
    end.

Definition tell (e : event) : M unit := fun g => ([e], Ok (tt, g)).

Definition raise {A} (e : exn) : M A := fun g => ([], Raise e).

Definition lift_rng {A} (f : rng -> A * rng) : M A :=
  fun g => ([], Ok (f g)).

Definition when (b : bool) (m : M unit) : M unit :=
  if b then m else ret tt.
End Monad.

Notation "'let*' x := m 'in' k" := (bind m (fun x => k))
  (at level 10, x pattern, m at level 100, k at level 200).
Notation "m ;; k" := (bind m (fun _ => k))
  (at level 100, right associativity).

(** ** Numbers *)

Definition Qnat (n : nat) : Q := inject_Z (Z.of_nat n).

(** Python 3 true division ([from __future__ import division]). *)
Definition py_div (a b : Q) : result Q :=
  if Qeq_bool b 0 then Raise ZeroDivisionError else Ok (a / b)%Q.

Definition Qsum (l : list Q) : Q := foldr Qplus 0%Q l.

(** ** Parameters, layers and the model object *)

Section Model.
Context `{Torch}.

(** A parameter as the notebook touches it.  [requires_grad] is the
    flag autograd reads.  [attrs] is the instance dictionary, where an
    assignment to a name the class does not define ends up.
    [momentum_buffer] is the optimizer's per-parameter state
    ([optimizer.state[p]]), kept next to the parameter it is keyed by. *)
Record Param : Type := mkParameter {
  data : tensor;
  grad : option tensor;
  requires_grad : bool;
  momentum_buffer : option tensor;
  attrs : gmap string pyval
}.

(** A fresh [nn.Parameter]: trainable, no gradient yet. *)
Definition nn_Parameter (t : tensor) : Param :=
  {| data := t; grad := None; requires_grad := true;
     momentum_buffer := None; attrs := ∅ |}.

Definition set_data (p : Param) (t : tensor) : Param :=
  {| data := t; grad := grad p; requires_grad := requires_grad p;
     momentum_buffer := momentum_buffer p; attrs := attrs p |}.

Definition set_grad (p : Param) (o : option tensor) : Param :=
  {| data := data p; grad := o; requires_grad := requires_grad p;
     momentum_buffer := momentum_buffer p; attrs := attrs p |}.

(** [p.name = v].  The class defines [requires_grad]; the assignment
    goes to the flag.  Any other name creates or overwrites an entry of
    the instance dictionary.  (Only booleans are ever assigned here.) *)
Definition setattr (p : Param) (name : string) (v : pyval) : Param :=
  if String.eqb name "requires_grad" then
    match v with
    | PyBool b =>
        {| data := data p; grad := grad p; requires_grad := b;
           momentum_buffer := momentum_buffer p; attrs := attrs p |}
    | _ => p
    end
  else
    {| data := data p; grad := grad p; requires_grad := requires_grad p;
       momentum_buffer := momentum_buffer p;
       attrs := <[name := v]> (attrs p) |}.

Inductive Layer : Type :=
| Linear (in_features out_features : Z) (weight bias : Param)
| ReLU
| Dropout.

(** [nn.Linear(in_features, out_features)] *)
Definition nn_Linear (in_features out_features : Z) : M Layer :=
  lift_rng (fun g =>
    match linear_init g in_features out_features with
    | (w, b, g') =>
        (Linear in_features out_features (nn_Parameter w) (nn_Parameter b), g')
    end).

(** The model: the parameters and the running statistics of
    [vgg.features], the children of [vgg.classifier], and the mode flag
    that [train()] and [eval()] set. *)
Record VGG : Type := mkVGG {
  features : list Param;
  features_buffers : list tensor;
  classifier : list Layer;
  training : bool
}.

Definition layer_parameters (l : Layer) : list Param :=
  match l with
  | Linear _ _ w b => [w; b]
  | _ => []
  end.

(** [vgg.parameters()] *)
Definition parameters (vgg : VGG) : list Param :=
  features vgg ++ flat_map layer_parameters (classifier vgg).

Fixpoint set_layer_parameters (ls : list Layer) (ps : list Param)
  : list Layer :=
  match ls with
  | [] => []
  | Linear i o w b :: ls' =>
      match ps with
      | w' :: b' :: ps' => Linear i o w' b' :: set_layer_parameters ls' ps'
      | _ => ls
      end
  | l :: ls' => l :: set_layer_parameters ls' ps
  end.

(** Parameters are objects mutated in place; a loop
    [for p in vgg.parameters(): p.x = ...] is read as: compute the new
    parameters in order, then store them back position by position. *)
Definition set_parameters (vgg : VGG) (ps : list Param) : VGG :=
  {| features := take (length (features vgg)) ps;
     features_buffers := features_buffers vgg;
     classifier :=
       set_layer_parameters (classifier vgg)
         (drop (length (features vgg)) ps);
     training := training vgg |}.

Definition map_parameters (f : nat -> Param -> Param) (vgg : VGG)
  : VGG :=
  set_parameters vgg (imap f (parameters vgg)).

(** [vgg.train(mode)]; [vgg.eval()] is [vgg.train(False)]. *)
Definition train (mode : bool) (vgg : VGG) : VGG :=
  {| features := features vgg; features_buffers := features_buffers vgg;
     classifier := classifier vgg; training := mode |}.

(** [vgg.state_dict()]: the values of every parameter and buffer, in a
    fixed order (the keys of the ordered dictionary are positions here). *)
Definition state_dict (vgg : VGG) : list tensor :=
  (data <$> parameters vgg) ++ features_buffers vgg.

(** [copy.deepcopy]: values are immutable here, so a copy is the value. *)
Definition deepcopy (sd : list tensor) : list tensor := sd.

(** [vgg.load_state_dict(sd)]: copies every entry into the parameter or
    buffer of the same key; a key mismatch is an error. *)
Definition load_state_dict (vgg : VGG) (sd : list tensor) : result VGG :=
  if length sd =? length (state_dict vgg) then
    let n := length (parameters vgg) in
    let vgg' :=
    set_parameters vgg (zip_with set_data (parameters vgg) (take n sd)) in
    Ok {| features := features vgg';
          features_buffers := drop n sd;
          classifier := classifier vgg';
          training := training vgg' |}
  else Raise RuntimeError.
End Model.

(** ** Forward pass, autograd and the optimizer *)

Section Autograd.
Context `{Torch}.

(** What a forward pass keeps for [backward].  With volatile inputs
    ([Variable(x, volatile=True)]) nothing is kept. *)
Record Graph : Type := mkGraph {
  g_training : bool;
  g_state : list tensor;
  g_rng : rng;
  g_inputs : list image
}.

Record Outputs : Type := mkOutputs {
  rows : list logits;
  graph : option Graph
}.

Record Loss : Type := mkLoss {
  value : Q;
  loss_graph : option (Graph * list nat)
}.

Definition set_buffers (vgg : VGG) (bs : list tensor) : VGG :=
  {| features := features vgg; features_buffers := bs;
     classifier := classifier vgg; training := training vgg |}.

(** Whether some parameter of the model asks for a gradient.  The output
    of a forward pass on plain inputs requires a gradient, and so carries
    a graph, exactly in this case. *)
Definition trainable (vgg : VGG) : bool :=
  existsb requires_grad (parameters vgg).

(** [vgg(inputs)].  In training mode the pass uses batch statistics and
    dropout masks, writes the running statistics back into the model and
    consumes randomness; in evaluation mode it is row-wise and leaves the
    model alone.  The output keeps a graph when the inputs are not
    volatile and some parameter requires a gradient. *)
Definition call (vgg : VGG) (inputs : list image) (volatile : bool)
  : M (Outputs * VGG) :=
  tell (Forward (training vgg) volatile (length inputs)) ;;
  fun g =>
    let sd := state_dict vgg in
    let gr :=
      if volatile then None
      else if trainable vgg then
        Some {| g_training := training vgg; g_state := sd;
                g_rng := g; g_inputs := inputs |}
      else None in
    if training vgg then
      ([], Ok ({| rows := net_train sd g inputs; graph := gr |},
               set_buffers vgg
                 (imap (bn_update sd inputs) (features_buffers vgg)),
               dropout_advance g))
    else
      ([], Ok ({| rows := net_eval sd <$> inputs; graph := gr |}, vgg, g)).

(** A loss function maps output rows and labels to a number. *)
Definition Criterion : Type := list logits -> list nat -> Q.

(** [nn.CrossEntropyLoss()]: the mean over the batch of the per-row
    negative log likelihood. *)
Definition CrossEntropyLoss : Criterion :=
  fun outputs labels =>
    (Qsum (zip_with nll outputs labels) / Qnat (length outputs))%Q.

(** [criterion(outputs, labels)] *)
Definition apply_criterion (criterion : Criterion) (outputs : Outputs)
  (labels : list nat) : Loss :=
  {| value := criterion (rows outputs) labels;
     loss_graph := (fun gr => (gr, labels)) <$> graph outputs |}.

(** [torch.max(outputs.data, 1)]: the index of the largest entry per row *)
Definition torch_max (outputs : Outputs) : list nat := argmax <$> rows outputs.

(** [torch.sum(preds == labels.data)] *)
Definition count_correct (preds labels : list nat) : nat :=
  length (filter (fun pl => pl.1 =? pl.2) (zip preds labels)).

(** [optimizer.zero_grad()]: every gradient that exists is zeroed. *)
Definition zero_grad (vgg : VGG) : M VGG :=
  tell ZeroGrad ;;
  ret (map_parameters (fun _ p => set_grad p (zeros_like <$> grad p)) vgg).

Definition accumulate (old : option tensor) (d : tensor) : tensor :=
  match old with
  | None => d
  | Some o => tensor_add o d
  end.

(** [loss.backward()]: every parameter whose [requires_grad] is set
    receives its gradient.  A loss without a graph (from volatile
    inputs, or from a model none of whose parameters requires a
    gradient) cannot be differentiated: [RuntimeError]. *)
Definition backward (loss : Loss) (vgg : VGG) : M VGG :=
  tell Backward ;;
  match loss_graph loss with
  | None => raise RuntimeError
  | Some (gr, labels) =>
      ret (map_parameters
             (fun i p =>
                if requires_grad p then
                  set_grad p
                    (Some (accumulate (grad p)
                             (autograd (g_training gr) (g_state gr) (g_rng gr)
                                (g_inputs gr) labels i)))
                else p)
             vgg)
  end.

(** An optimizer over [vgg.parameters()]: how the momentum buffer
    follows the gradient, and how the data follows the buffer. *)
Record Optimizer : Type := mkOptimizer {
  opt_buffer : option tensor -> tensor -> tensor;
  opt_apply : tensor -> tensor -> tensor
}.

(** [optimizer.step()]: parameters without a gradient are skipped. *)
Definition step (optimizer : Optimizer) (vgg : VGG) : M VGG :=
  tell Step ;;
  ret (map_parameters
         (fun _ p =>
            match grad p with
            | None => p
            | Some d_p =>
                let buf := opt_buffer optimizer (momentum_buffer p) d_p in
                {| data := opt_apply optimizer (data p) buf;
                   grad := grad p;
                   requires_grad := requires_grad p;
                   momentum_buffer := Some buf;
                   attrs := attrs p |}
            end)
         vgg).

(** [lr_scheduler.StepLR]; [train_model] receives one and never steps it. *)
Record StepLR : Type := mkStepLR { step_size : nat; gamma : Q }.
End Autograd.

(** ** Data loading *)

Section Data.
Context `{Torch}.

Definition sample : Type := image * nat.
Definition batch : Type := list image * list nat.

Definition batch_size : nat := 8.

(** [BatchSampler] with [drop_last=False]: indices are collected until
    the batch is full; what is left at the end is a last, shorter batch. *)
Fixpoint batch_sampler {A} (bs : nat) (idx : list A) (cur : list A)
  : list (list A) :=
  match idx with
  | [] => if 0 <? length cur then [cur] else []
  | i :: idx' =>
      let cur' := cur ++ [i] in
      if length cur' =? bs then cur' :: batch_sampler bs idx' []
      else batch_sampler bs idx' cur'
  end.

(** [dataset[i] for i in indices], collated into inputs and labels *)
Definition fetch (dataset : list sample) (indices : list nat) : batch :=
  let samples := omap (fun i => dataset !! i) indices in
  (samples.*1, samples.*2).

(** [iter(DataLoader(dataset, batch_size=8, shuffle=True))]: one pass
    over a freshly drawn order. *)
Definition DataLoader_iter (dataset : list sample) : M (list batch) :=
  lift_rng (fun g =>
    match randperm g (length dataset) with
    | (order, g') =>
        (fetch dataset <$> batch_sampler batch_size order [], g')
    end).

(** [len(DataLoader(...))] *)
Definition DataLoader_len (dataset : list sample) : nat :=
  (length dataset + batch_size - 1) / batch_size.
End Data.

(** ** The notebook *)

Inductive split : Type := TRAIN | VAL | TEST.

Definition Qlt_bool (a b : Q) : bool := negb (Qle_bool b a).

Definition rule : string := "----------".

Section Notebook.
Context `{Torch}.

(** The three image folders, and the class names read from the
    directories of the training split. *)
Variable image_datasets : split -> list sample.
Variable class_names : list string.

Definition dataloaders (x : split) : M (list batch) :=
  DataLoader_iter (image_datasets x).

Definition dataset_sizes (x : split) : nat := length (image_datasets x).

Definition lift_result {A} (r : result A) : M A :=
  match r with
  | Ok a => ret a
  | Raise e => raise e
  end.

(** *** Utils *)

(** [[l[x] for x in xs]]: an index out of range raises [IndexError]. *)
Definition index_all {A} (l : list A) (xs : list nat) : M (list A) :=
  match mapM (fun x => l !! x) xs with
  | Some ys => ret ys
  | None => raise IndexError
  end.

(** [torchvision.utils.make_grid(inputs)]: the images of the batch in
    one grid, here the number of images in it.  The number of rows is a
    quotient by the number of images, so an empty batch has no grid. *)
Definition make_grid (inputs : list image) : M nat :=
  match inputs with
  | [] => raise ZeroDivisionError
  | _ :: _ => ret (length inputs)
  end.

(** [show_databatch(inputs, classes)]: one grid of images, titled with
    the names of their classes.  The grid is made first, then the title,
    then the figure is shown. *)
Definition show_databatch (inputs : list image) (classes : list nat)
  : M unit :=
  let* out := make_grid inputs in
  let* title := index_all class_names classes in
  tell (ShowDatabatch out title).

Fixpoint visualize_loop (vgg : VGG) (num_images : Z) (loader : list batch)
  (images_so_far : Z) : M (Z * VGG) :=
  match loader with
  | [] => ret (images_so_far, vgg)
  | (inputs, labels) :: rest =>
      let size := length inputs in
      let* (outputs, vgg) := call vgg inputs true in
      let preds := torch_max outputs in
      let* predicted_labels := index_all preds (seq 0 size) in
      tell (Print "Ground truth:") ;;
      show_databatch inputs labels ;;
      tell (Print "Prediction:") ;;
      show_databatch inputs predicted_labels ;;
      tell EmptyCache ;;
      let images_so_far := (images_so_far + Z.of_nat size)%Z in
      if (num_images <=? images_so_far)%Z then ret (images_so_far, vgg)
      else visualize_loop vgg num_images rest images_so_far
  end.

Definition visualize_model (vgg : VGG) (num_images : Z) : M (pyval * VGG) :=
  let was_training := training vgg in
  let vgg := train false vgg in
  let vgg := train false vgg in
  let* loader := dataloaders TEST in
  let* (_, vgg) := visualize_loop vgg num_images loader 0%Z in
  let vgg := train was_training vgg in
  ret (PyNone, vgg).



(** *** Model creation *)

Definition set_features (vgg : VGG) (ps : list Param) : VGG :=
  {| features := ps; features_buffers := features_buffers vgg;
     classifier := classifier vgg; training := training vgg |}.

Definition set_classifier (vgg : VGG) (ls : list Layer) : VGG :=
  {| features := features vgg; features_buffers := features_buffers vgg;
     classifier := ls; training := training vgg |}.

Definition linear_widths (ls : list Layer) : list (Z * Z) :=
  flat_map (fun l => match l with Linear i o _ _ => [(i, o)] | _ => [] end) ls.

(** [vgg16.classifier[6]] as a linear layer *)
Definition classifier_6 (vgg16 : VGG) : M (Z * Z) :=
  match classifier vgg16 !! 6 with
  | None => raise IndexError
  | Some (Linear i o _ _) => ret (i, o)
  | Some _ => raise AttributeError
  end.

(** The model creation cell, applied to the pretrained [vgg16]. *)
Definition model_adapter (vgg16 : VGG) : M VGG :=
  let* (_, out_features) := classifier_6 vgg16 in
  tell (PrintInt out_features) ;;
  let vgg16 :=
    set_features vgg16
      ((fun param => setattr param "require_grad" (PyBool false))
         <$> features vgg16) in
  let* (num_features, _) := classifier_6 vgg16 in
  let features := removelast (classifier vgg16) in
  let* fc := nn_Linear num_features (Z.of_nat (length class_names)) in
  let features := features ++ [fc] in
  let vgg16 := set_classifier vgg16 features in
  tell (PrintModel (linear_widths (classifier vgg16))) ;;
  ret vgg16.

Definition resume_training : bool := false.

(** The resume cell: a fine-tuned checkpoint replaces the parameters. *)
Definition resume_cell (vgg16 : VGG) (checkpoint : list tensor) : M VGG :=
  if resume_training then
    tell (Print "Loading pretrained model..") ;;
    let* vgg16 := lift_result (load_state_dict vgg16 checkpoint) in
    tell (Print "Loaded!") ;;
    ret vgg16
  else ret vgg16.

(** *** Training *)

Fixpoint train_loop (criterion : Criterion) (optimizer : Optimizer)
  (train_batches i : nat) (loader : list batch) (loss_train : Q)
  (acc_train : nat) (vgg : VGG) : M (Q * nat * VGG) :=
  match loader with
  | [] => ret (loss_train, acc_train, vgg)
  | (inputs, labels) :: rest =>
      when (i mod 100 =? 0)
        (tell (PrintBatch "Training batch" i (Qnat train_batches / 2)%Q)) ;;
      if Qle_bool (Qnat train_batches / 2)%Q (Qnat i) then
        ret (loss_train, acc_train, vgg)
      else
        let* vgg := zero_grad vgg in
        let* (outputs, vgg) := call vgg inputs false in
        let preds := torch_max outputs in
        let loss := apply_criterion criterion outputs labels in
        let* vgg := backward loss vgg in
        let* vgg := step optimizer vgg in
        let loss_train := (loss_train + value loss)%Q in
        let acc_train := acc_train + count_correct preds labels in
        tell EmptyCache ;;
        train_loop criterion optimizer train_batches (S i) rest
          loss_train acc_train vgg
  end.

Fixpoint val_loop (criterion : Criterion) (val_batches i : nat)
  (loader : list batch) (loss_val : Q) (acc_val : nat) (vgg : VGG)
  : M (Q * nat * VGG) :=
  match loader with
  | [] => ret (loss_val, acc_val, vgg)
  | (inputs, labels) :: rest =>
      when (i mod 100 =? 0)
        (tell (PrintBatch "Validation batch" i (Qnat val_batches))) ;;
      let* vgg := zero_grad vgg in
      let* (outputs, vgg) := call vgg inputs true in
      let preds := torch_max outputs in
      let loss := apply_criterion criterion outputs labels in
      let loss_val := (loss_val + value loss)%Q in
      let acc_val := acc_val + count_correct preds labels in
      tell EmptyCache ;;
      val_loop criterion val_batches (S i) rest loss_val acc_val vgg
  end.

(** The training pass of one epoch: from [vgg.train(True)] to the
    averaged training metrics. *)
Definition train_phase (criterion : Criterion) (optimizer : Optimizer)
  (train_batches : nat) (vgg : VGG) : M (Q * Q * VGG) :=
  let vgg := train true vgg in
  let* loader := dataloaders TRAIN in
  let* (loss_train, acc_train, vgg) :=
    train_loop criterion optimizer train_batches 0 loader 0%Q 0 vgg in
  tell (Print "") ;;
  let* avg_loss :=
    lift_result (py_div (loss_train * 2) (Qnat (dataset_sizes TRAIN))) in
  let* avg_acc :=
    lift_result (py_div (Qnat acc_train * 2) (Qnat (dataset_sizes TRAIN))) in
  ret (avg_loss, avg_acc, vgg).

(** The validation pass of one epoch: from [vgg.train(False)] to the
    averaged validation metrics. *)
Definition val_phase (criterion : Criterion) (val_batches : nat) (vgg : VGG)
  : M (Q * Q * VGG) :=
  let vgg := train false vgg in
  let vgg := train false vgg in
  let* loader := dataloaders VAL in
  let* (loss_val, acc_val, vgg) :=
    val_loop criterion val_batches 0 loader 0%Q 0 vgg in
  let* avg_loss_val :=
    lift_result (py_div loss_val (Qnat (dataset_sizes VAL))) in
  let* avg_acc_val :=
    lift_result (py_div (Qnat acc_val) (Qnat (dataset_sizes VAL))) in
  ret (avg_loss_val, avg_acc_val, vgg).

(** The body of the epoch loop up to the report; it yields the
    validation accuracy the best-snapshot test reads. *)
Definition train_epoch (criterion : Criterion) (optimizer : Optimizer)
  (train_batches val_batches num_epochs epoch : nat) (vgg : VGG)
  : M (Q * VGG) :=
  tell (PrintEpoch epoch num_epochs) ;;
  tell (Print rule) ;;
  let* (avg_loss, avg_acc, vgg) :=
    train_phase criterion optimizer train_batches vgg in
  let* (avg_loss_val, avg_acc_val, vgg) :=
    val_phase criterion val_batches vgg in
  tell (Print "") ;;
  tell (PrintResult epoch) ;;
  tell (PrintMetric "Avg loss (train)" avg_loss) ;;
  tell (PrintMetric "Avg acc (train)" avg_acc) ;;
  tell (PrintMetric "Avg loss (val)" avg_loss_val) ;;
  tell (PrintMetric "Avg acc (val)" avg_acc_val) ;;
  tell (Print rule) ;;
  tell (Print "") ;;
  ret (avg_acc_val, vgg).

(** [for epoch in range(num_epochs)], with [n] epochs still to run. *)
Fixpoint epoch_loop (criterion : Criterion) (optimizer : Optimizer)
  (train_batches val_batches num_epochs n epoch : nat)
  (best_model_wts : list tensor) (best_acc : Q) (vgg : VGG)
  : M (list tensor * Q * VGG) :=
  match n with
  | 0 => ret (best_model_wts, best_acc, vgg)
  | S n' =>
      let* (avg_acc_val, vgg) :=
        train_epoch criterion optimizer train_batches val_batches
          num_epochs epoch vgg in
      if Qlt_bool best_acc avg_acc_val then
        epoch_loop criterion optimizer train_batches val_batches
          num_epochs n' (S epoch) (deepcopy (state_dict vgg)) avg_acc_val vgg
      else
        epoch_loop criterion optimizer train_batches val_batches
          num_epochs n' (S epoch) best_model_wts best_acc vgg
  end.

Definition train_model (vgg : VGG) (criterion : Criterion)
  (optimizer : Optimizer) (scheduler : StepLR) (num_epochs : nat) : M VGG :=
  let best_model_wts := deepcopy (state_dict vgg) in
  let best_acc := 0%Q in
  let train_batches := DataLoader_len (image_datasets TRAIN) in
  let val_batches := DataLoader_len (image_datasets VAL) in
  let* (best_model_wts, best_acc, vgg) :=
    epoch_loop criterion optimizer train_batches val_batches
      num_epochs num_epochs 0 best_model_wts best_acc vgg in
  tell (Print "") ;;
  tell (PrintElapsed "Training completed in") ;;
  tell (PrintMetric "Best acc" best_acc) ;;
  let* vgg := lift_result (load_state_dict vgg best_model_wts) in
  ret vgg.
End Notebook.

(** * Vocabulary of the statements

    Functions that read a trace or describe what a loop accumulates.
    They are used to state the properties below; the notebook does not
    contain them. *)

Section Observations.
Context `{Torch}.


Definition n_images (e : event) : nat :=
  match e with
  | ShowDatabatch n _ => n
  | _ => 0
  end.

(** The images in all grids of a trace. *)
Definition images_shown (l : list event) : nat := sum_list_with n_images l.

(** [visualize_model] shows every batch in two grids, one titled with
    the ground truth and one with the predictions; the images it
    displays are half the images in its grids. *)
Definition images_displayed (l : list event) : nat :=
  Nat.div2 (images_shown l).







(** The batches of one pass, as a function of the generator state. *)
Definition batches_of (dataset : list sample) (g : rng) : list batch :=
  fetch dataset <$>
    batch_sampler batch_size (randperm g (length dataset)).1 [].








(** The [requires_grad] flags of the parameters, in order, and the
    number of buffers.  Models of equal shape have state dictionaries of
    equal length, which is what [load_state_dict] compares, and are
    trainable alike. *)
Definition shape (vgg : VGG) : list bool * nat :=
  (requires_grad <$> parameters vgg, length (features_buffers vgg)).





(** The samples of a collated batch. *)
Definition batch_samples (b : batch) : list sample := zip b.1 b.2.

(** The batch sizes of a pass over [n] samples: full batches, then the
    rest if there is one. *)
Definition batch_sizes (n : nat) : list nat :=
  replicate (n / batch_size) batch_size
  ++ (if n mod batch_size =? 0 then [] else [n mod batch_size]).

(** The running count with which the display loop stops, as a function
    of the sizes of the batches it is offered. *)
Fixpoint images_after (num_images : Z) (sizes : list nat) (images_so_far : Z)
  : Z :=
  match sizes with
  | [] => images_so_far
  | size :: rest =>
      let images_so_far := (images_so_far + Z.of_nat size)%Z in
      if (num_images <=? images_so_far)%Z then images_so_far
      else images_after num_images rest images_so_far
  end.

End Observations.

Section RunObservations.
Context `{Torch}.
Variable image_datasets : split -> list sample.
Variable criterion : Criterion.
Variable optimizer : Optimizer.


End RunObservations.

(** ** A small concrete framework

    Tensors, images and output rows are integers; the network adds its
    first weight to the input; the predicted class is the output modulo 4
    and the loss of a row is its absolute value; every gradient is 1 and
    the optimizer subtracts it.  The generator is a counter: an even state
    keeps the order of the data set, an odd state reverses it. *)

Module Toy.
Definition toy_randperm (g n : nat) : list nat * nat :=
  (if Nat.even g then seq 0 n else rev (seq 0 n), S g).

Definition toy_randperm_perm (g n : nat) :
  Permutation (toy_randperm g n).1 (seq 0 n) :=
  match Nat.even g as b
    return Permutation (if b then seq 0 n else rev (seq 0 n)) (seq 0 n)
  with
  | true => Permutation_refl (seq 0 n)
  | false => Permutation_sym (Permutation_rev (seq 0 n))
  end.

Definition toy : Torch :=
  {| tensor := Z;
     image := Z;
     logits := Z;
     rng := nat;
     randperm := toy_randperm;
     randperm_perm := toy_randperm_perm;
     net_eval := fun sd x => (x + hd 0 sd)%Z;
     net_train := fun sd _ xs => (fun x => (x + hd 0 sd)%Z) <$> xs;
     bn_update := fun _ _ _ b => (b + 1)%Z;
     dropout_advance := S;
     argmax := fun z => Z.to_nat (z mod 4);
     nll := fun z _ => inject_Z (Z.abs z);
     autograd := fun _ _ _ _ _ _ => 1%Z;
     tensor_add := Z.add;
     zeros_like := fun _ => 0%Z;
     linear_init := fun g i o => (i, o, S g) |}.

Definition sgd : @Optimizer toy :=
  @mkOptimizer toy (fun _ d => d) (fun t b => (t - b)%Z).

Definition scheduler : StepLR := {| step_size := 7; gamma := 1 # 10 |}.

Definition weight (z : Z) : @Param toy := @nn_Parameter toy z.

(** A network shaped like VGG-16: one backbone weight with one running
    statistic, and the seven children of the classifier. *)
Definition vgg16 : @VGG toy :=
  @mkVGG toy [weight 0] [0%Z]
    [Linear 25088 4096 (weight 1) (weight 2); ReLU; Dropout;
     Linear 4096 4096 (weight 3) (weight 4); ReLU; Dropout;
     Linear 4096 1000 (weight 5) (weight 6)]
    true.

Definition class_names : list string := ["CNV"; "DME"; "DRUSEN"; "NORMAL"].

(** Three training images, one validation image, nine test images
    (one full batch and a short one). *)
Definition image_datasets (x : split) : list (@sample toy) :=
  match x with
  | TRAIN => [(0%Z, 0); (1%Z, 1); (2%Z, 2)]
  | VAL => [(0%Z, 2)]
  | TEST => (fun i => (Z.of_nat i, 0)) <$> seq 1 9
  end.





(** A network whose only parameter is a frozen backbone weight. *)
Definition vgg16_frozen : @VGG toy :=
  @mkVGG toy [@setattr toy (weight 0) "requires_grad" (PyBool false)] [0%Z]
    [ReLU; Dropout] true.
End Toy.

(** * Facts about the model object *)

Section ModelFacts.
Context `{Torch}.

Lemma layer_parameters_set (ls : list Layer) (qs : list Param) :
  length qs = length (flat_map layer_parameters ls) ->
  flat_map layer_parameters (set_layer_parameters ls qs) = qs.
Proof.
  revert qs. induction ls as [| l ls IH]; intros qs Hlen.
  - destruct qs; [reflexivity | discriminate].
  - destruct l as [i o w b | |]; simpl in *.
    + destruct qs as [| w' [| b' qs]]; try discriminate.
      simpl in *. rewrite IH; [reflexivity | lia].
    + apply IH, Hlen.
    + apply IH, Hlen.
Qed.

Lemma parameters_set_parameters (vgg : VGG) (ps : list Param) :
  length ps = length (parameters vgg) ->
  parameters (set_parameters vgg ps) = ps.
Proof.
  unfold parameters, set_parameters. simpl. intros Hlen.
  rewrite length_app in Hlen.
  rewrite layer_parameters_set.
  - apply take_drop.
  - rewrite length_drop. lia.
Qed.

Lemma parameters_map_parameters f (vgg : VGG) :
  parameters (map_parameters f vgg) = imap f (parameters vgg).
Proof.
  unfold map_parameters. apply parameters_set_parameters.
  apply length_imap.
Qed.

Lemma features_buffers_map_parameters f (vgg : VGG) :
  features_buffers (map_parameters f vgg) = features_buffers vgg.
Proof. reflexivity. Qed.

Lemma training_map_parameters f (vgg : VGG) :
  training (map_parameters f vgg) = training vgg.
Proof. reflexivity. Qed.

Lemma fmap_imap_data (f : nat -> Param -> Param) (ps : list Param) :
  (forall i p, data (f i p) = data p) ->
  data <$> imap f ps = data <$> ps.
Proof.
  intros Hf. revert f Hf. induction ps as [| p ps IH]; intros f Hf.
  - reflexivity.
  - simpl. rewrite Hf. f_equal. apply IH. intros i q. apply Hf.
Qed.

(** A traversal that leaves every [data] alone leaves the state
    dictionary alone. *)
Lemma state_dict_map_parameters f (vgg : VGG) :
  (forall i p, data (f i p) = data p) ->
  state_dict (map_parameters f vgg) = state_dict vgg.
Proof.
  intros Hf. unfold state_dict.
  rewrite parameters_map_parameters, features_buffers_map_parameters.
  rewrite fmap_imap_data by exact Hf. reflexivity.
Qed.

Lemma state_dict_train mode (vgg : VGG) :
  state_dict (train mode vgg) = state_dict vgg.
Proof. reflexivity. Qed.


End ModelFacts.

(** * The model creation cell *)

Section ModelAdapter.
Context `{Torch}.
Variable class_names : list string.

(** The freeze loop writes the name [require_grad]; the class defines
    [requires_grad].  The assignment therefore lands in the instance
    dictionary and the flag keeps its value. *)
Lemma setattr_require_grad (p : Param) (v : pyval) :
  requires_grad (setattr p "require_grad" v) = requires_grad p /\
  data (setattr p "require_grad" v) = data p /\
  attrs (setattr p "require_grad" v) = <["require_grad" := v]> (attrs p).
Proof. repeat split. Qed.

Lemma setattr_requires_grad (p : Param) (b : bool) :
  requires_grad (setattr p "requires_grad" (PyBool b)) = b.
Proof. reflexivity. Qed.

Lemma classifier_6_last (vgg16 : VGG) front k o w b g :
  classifier vgg16 = front ++ [Linear k o w b] ->
  length front = 6 ->
  classifier_6 vgg16 g = ([], Ok ((k, o), g)).
Proof.
  intros Hc Hlen. unfold classifier_6.
  rewrite Hc, lookup_app_r by lia.
  rewrite Hlen. reflexivity.
Qed.

(** Whatever the cell returns, the flags of the backbone parameters
    are the ones it was given. *)
Lemma model_adapter_flags (vgg16 vgg' : VGG) g l g' :
  model_adapter class_names vgg16 g = (l, Ok (vgg', g')) ->
  requires_grad <$> features vgg' = requires_grad <$> features vgg16 /\
  data <$> features vgg' = data <$> features vgg16.
Proof.
  unfold model_adapter, bind. intros E.
  destruct (classifier_6 vgg16 g) as [l1 [[[i1 o1] g1] | e1]] eqn:E1;
    [| discriminate].
  simpl in E.
  match type of E with
  | context [classifier_6 ?v g1] =>
      destruct (classifier_6 v g1) as [l2 [[[i2 o2] g2] | e2]] eqn:E2;
        [| discriminate]
  end.
  unfold nn_Linear, lift_rng in E.
  destruct (linear_init g2 i2 (Z.of_nat (length class_names)))
    as [[w0 b0] g3] eqn:E3.
  simpl in E. inversion E; subst. simpl.
  rewrite <- !list_fmap_compose. split; apply list_fmap_ext; reflexivity.
Qed.
End ModelAdapter.

(** * Facts about data loading *)

Section DataFacts.
Context `{Torch}.

Lemma batch_sampler_length {A} (idx cur : list A) :
  length cur < batch_size ->
  length (batch_sampler batch_size idx cur)
  = (length cur + length idx + batch_size - 1) / batch_size.
Proof.
  unfold batch_size. revert cur.
  induction idx as [| i idx IH]; intros cur Hcur; simpl.
  - destruct (Nat.ltb_spec 0 (length cur)); simpl; lia.
  - rewrite length_app. simpl.
    destruct (Nat.eqb_spec (length cur + 1) 8) as [E | NE].
    + simpl. rewrite IH by (simpl; lia). simpl. lia.
    + rewrite IH by (rewrite length_app; simpl; lia).
      rewrite length_app. simpl. f_equal. lia.
Qed.

Lemma batch_sampler_concat {A} bs (idx cur : list A) :
  concat (batch_sampler bs idx cur) = cur ++ idx.
Proof.
  revert cur. induction idx as [| i idx IH]; intros cur; simpl.
  - destruct (0 <? length cur) eqn:E; simpl.
    + reflexivity.
    + apply Nat.ltb_ge in E. destruct cur; [reflexivity | simpl in E; lia].
  - destruct (length (cur ++ [i]) =? bs); simpl; rewrite IH.
    + rewrite <- app_assoc. reflexivity.
    + rewrite <- app_assoc. reflexivity.
Qed.

Lemma batch_sampler_sizes {A} (idx cur : list A) :
  length cur < batch_size ->
  Forall (fun b => 1 <= length b <= batch_size)
    (batch_sampler batch_size idx cur).
Proof.
  unfold batch_size. revert cur.
  induction idx as [| i idx IH]; intros cur Hcur; simpl.
  - destruct (Nat.ltb_spec 0 (length cur)); constructor; [lia | constructor].
  - destruct (Nat.eqb_spec (length (cur ++ [i])) 8) as [E | NE].
    + constructor; [lia | apply IH; simpl; lia].
    + apply IH. rewrite length_app in *. simpl in *. lia.
Qed.

Lemma batch_sampler_full {A} (idx cur : list A) :
  length cur < batch_size ->
  (length cur + length idx) mod batch_size = 0 ->
  Forall (fun b => length b = batch_size) (batch_sampler batch_size idx cur).
Proof.
  unfold batch_size. revert cur.
  induction idx as [| i idx IH]; intros cur Hcur Hmod; simpl in *.
  - destruct (Nat.ltb_spec 0 (length cur)); [| constructor].
    exfalso. lia.
  - destruct (Nat.eqb_spec (length (cur ++ [i])) 8) as [E | NE].
    + constructor; [exact E |]. apply IH; simpl; [lia |].
      rewrite length_app in E. simpl in E. lia.
    + rewrite length_app in NE. simpl in NE.
      apply IH; rewrite length_app; simpl; lia.
Qed.

Lemma randperm_length g n : length (randperm g n).1 = n.
Proof.
  rewrite (Permutation_length (randperm_perm g n)). apply length_seq.
Qed.

Lemma randperm_range g n : Forall (fun i => i < n) (randperm g n).1.
Proof.
  rewrite (randperm_perm g n). apply Forall_forall.
  intros i Hi. apply elem_of_seq in Hi. lia.
Qed.

Lemma omap_lookup_length {A} (l : list A) (idx : list nat) :
  Forall (fun i => i < length l) idx ->
  length (omap (fun i => l !! i) idx) = length idx.
Proof.
  induction 1 as [| i idx Hi _ IH]; simpl; [reflexivity |].
  destruct (lookup_lt_is_Some_2 l i Hi) as [x Hx]. rewrite Hx.
  simpl. f_equal. exact IH.
Qed.

Lemma fetch_length (dataset : list sample) (idx : list nat) :
  Forall (fun i => i < length dataset) idx ->
  length (fetch dataset idx).1 = length idx /\
  length (fetch dataset idx).2 = length idx.
Proof.
  intros Hidx. unfold fetch. simpl.
  rewrite !length_fmap, omap_lookup_length by exact Hidx. auto.
Qed.

Lemma DataLoader_iter_run (dataset : list sample) g :
  DataLoader_iter dataset g =
    ([], Ok (batches_of dataset g, (randperm g (length dataset)).2)).
Proof.
  unfold DataLoader_iter, lift_rng, batches_of.
  destruct (randperm g (length dataset)); reflexivity.
Qed.

Lemma batches_of_length (dataset : list sample) g :
  length (batches_of dataset g) = DataLoader_len dataset.
Proof.
  unfold batches_of, DataLoader_len.
  rewrite length_fmap, batch_sampler_length by (unfold batch_size; simpl; lia).
  rewrite randperm_length. reflexivity.
Qed.

Lemma batch_indices_range {A} (P : A -> Prop) bs (idx cur : list A) :
  Forall P (cur ++ idx) -> Forall (Forall P) (batch_sampler bs idx cur).
Proof.
  intros HP. rewrite <- (batch_sampler_concat bs) in HP.
  apply Forall_concat. exact HP.
Qed.

Lemma Forall_fetch (P : nat -> Prop) (dataset : list sample)
  (bss : list (list nat)) :
  Forall (Forall (fun i => i < length dataset)) bss ->
  Forall (fun b => P (length b)) bss ->
  Forall (fun b : batch => P (length b.1) /\ length b.2 = length b.1)
    (fetch dataset <$> bss).
Proof.
  intros Hr Hs. apply Forall_fmap.
  induction bss as [| b bss IH]; constructor;
    inversion Hs; inversion Hr; subst.
  - destruct (fetch_length dataset b) as [E1 E2]; [assumption |].
    cbn beta. unfold compose. rewrite E1, E2. split; [assumption | reflexivity].
  - apply IH; assumption.
Qed.

Lemma batches_of_sizes (dataset : list sample) g :
  Forall (fun b : batch => 1 <= length b.1 <= batch_size /\
                           length b.2 = length b.1)
    (batches_of dataset g).
Proof.
  unfold batches_of.
  apply (Forall_fetch (fun n => 1 <= n <= batch_size)).
  - apply batch_indices_range. simpl. apply randperm_range.
  - apply batch_sampler_sizes. unfold batch_size. simpl. lia.
Qed.

Lemma fetch_total (dataset : list sample) (bss : list (list nat)) :
  Forall (Forall (fun i => i < length dataset)) bss ->
  sum_list_with (fun b : batch => length b.1) (fetch dataset <$> bss)
  = length (concat bss).
Proof.
  induction 1 as [| b bss Hb _ IH]; [reflexivity |].
  rewrite !fmap_cons. cbn [sum_list_with concat].
  rewrite length_app, IH.
  destruct (fetch_length dataset b Hb) as [E1 _]. rewrite E1. reflexivity.
Qed.

Lemma batches_of_total (dataset : list sample) g :
  sum_list_with (fun b : batch => length b.1) (batches_of dataset g)
  = length dataset.
Proof.
  unfold batches_of. rewrite fetch_total.
  - rewrite batch_sampler_concat. simpl. apply randperm_length.
  - apply batch_indices_range. simpl. apply randperm_range.
Qed.

Lemma batches_of_full (dataset : list sample) g :
  length dataset mod batch_size = 0 ->
  Forall (fun b : batch => length b.1 = batch_size /\
                           length b.2 = length b.1)
    (batches_of dataset g).
Proof.
  intros Hmod. unfold batches_of.
  apply (Forall_fetch (fun n => n = batch_size)).
  - apply batch_indices_range. simpl. apply randperm_range.
  - apply batch_sampler_full.
    + unfold batch_size. simpl. lia.
    + rewrite randperm_length. exact Hmod.
Qed.
End DataFacts.

(** * The visualization utility *)

Section Visualize.
Context `{Torch}.
Variable image_datasets : split -> list sample.
Variable class_names : list string.

Lemma images_shown_app l1 l2 :
  images_shown (l1 ++ l2) = images_shown l1 + images_shown l2.
Proof. apply sum_list_with_app. Qed.

(** A forward pass in evaluation mode changes neither the model nor
    the generator. *)
Lemma call_eval (vgg : VGG) inputs volatile g :
  training vgg = false ->
  exists out,
    call vgg inputs volatile g
    = ([Forward false volatile (length inputs)], Ok (out, vgg, g)) /\
    rows out = net_eval (state_dict vgg) <$> inputs /\
    graph out =
      (if volatile then None
       else if trainable vgg then
         Some {| g_training := false; g_state := state_dict vgg;
                 g_rng := g; g_inputs := inputs |}
       else None).
Proof.
  intros Ht. unfold call, bind, tell. rewrite Ht.
  eexists. split; [reflexivity |]. split; reflexivity.
Qed.

Lemma make_grid_run (inputs : list image) g :
  inputs <> [] -> make_grid inputs g = ([], Ok (length inputs, g)).
Proof. destruct inputs; [congruence | reflexivity]. Qed.

Lemma show_databatch_run (inputs : list image) (classes : list nat) title g :
  inputs <> [] ->
  index_all class_names classes g = ([], Ok (title, g)) ->
  show_databatch class_names inputs classes g
  = ([ShowDatabatch (length inputs) title], Ok (tt, g)).
Proof.
  intros Hne E. unfold show_databatch.
  unfold bind at 1. rewrite (make_grid_run inputs g Hne).
  unfold bind at 1. rewrite E. reflexivity.
Qed.

Lemma index_all_ok {A} (l : list A) (xs : list nat) g :
  Forall (fun x => x < length l) xs ->
  exists ys, index_all l xs g = ([], Ok (ys, g)).
Proof.
  intros Hxs. unfold index_all.
  destruct (mapM_is_Some_2 (fun x => l !! x) xs) as [ys E].
  - eapply Forall_impl; [exact Hxs |].
    intros x Hx. apply lookup_lt_is_Some_2, Hx.
  - exists ys. rewrite E. reflexivity.
Qed.

Lemma lookup_seq_app {A} (l1 l2 : list A) :
  Forall2 (fun x y => (l1 ++ l2) !! x = Some y)
    (seq (length l1) (length l2)) l2.
Proof.
  revert l1. induction l2 as [| y l2 IH]; intros l1; [constructor |].
  cbn [length seq]. constructor.
  - apply list_lookup_middle. reflexivity.
  - specialize (IH (l1 ++ [y])). rewrite <- app_assoc in IH.
    rewrite length_app in IH. cbn [length app] in IH.
    rewrite Nat.add_1_r in IH. exact IH.
Qed.

Lemma index_all_seq {A} (l : list A) g :
  index_all l (seq 0 (length l)) g = ([], Ok (l, g)).
Proof.
  unfold index_all.
  rewrite (mapM_Some_2 (fun x => l !! x) (seq 0 (length l)) l
             (lookup_seq_app [] l)).
  reflexivity.
Qed.

Lemma index_all_inv {A} (l : list A) (xs : list nat) g tr r :
  index_all l xs g = (tr, r) ->
  tr = [] /\ (r = Raise IndexError \/ exists ys, r = Ok (ys, g)).
Proof.
  unfold index_all. destruct (mapM _ xs) as [ys |]; intros E;
    inversion E; subst; eauto.
Qed.

Lemma show_databatch_inv (inputs : list image) (classes : list nat) g tr r :
  show_databatch class_names inputs classes g = (tr, r) ->
  (exists e, r = Raise e) \/
  (exists title,
      tr = [ShowDatabatch (length inputs) title] /\ r = Ok (tt, g)).
Proof.
  unfold show_databatch. unfold bind at 1. destruct inputs as [| x inputs].
  - intros E. inversion E. left. eauto.
  - cbn [make_grid ret]. unfold bind at 1.
    destruct (index_all class_names classes g) as [tr1 r1] eqn:E1.
    destruct (index_all_inv _ _ _ _ _ E1) as [-> [-> | [t ->]]];
      intros E; inversion E; eauto.
Qed.

Lemma visualize_loop_spec (vgg : VGG) n loader sofar g :
  training vgg = false ->
  (forall x, argmax (net_eval (state_dict vgg) x) < length class_names) ->
  Forall (fun b : batch => 1 <= length b.1 <= batch_size /\
                           Forall (fun y => y < length class_names) b.2)
    loader ->
  exists l d,
    visualize_loop class_names vgg n loader sofar g = (l, Ok (d, vgg, g)) /\
    Z.of_nat (images_shown l) = (2 * (d - sofar))%Z /\
    (sofar <= d <= Z.max (sofar + 8) (n + 7))%Z /\
    (d <= sofar + Z.of_nat (sum_list_with (fun b : batch => length b.1) loader))%Z /\
    (Z.min n (sofar + Z.of_nat (sum_list_with (fun b : batch => length b.1) loader)) <= d)%Z.
Proof.
  intros Ht Hpred Hsizes. revert sofar.
  induction Hsizes as [| [inputs labels] rest [Hb Hlab] _ IH]; intros sofar.
  - exists [], sofar. split; [reflexivity |]. simpl. lia.
  - unfold batch_size in Hb. simpl in Hb, Hlab.
    destruct (call_eval vgg inputs true g Ht) as (out & Ecall & Hrows & _).
    cbn [visualize_loop]. unfold bind at 1. rewrite Ecall.
    assert (Hlen : length inputs = length (torch_max out)).
    { unfold torch_max. rewrite Hrows, !length_fmap. reflexivity. }
    rewrite Hlen. unfold bind at 1. rewrite index_all_seq. rewrite <- Hlen.
    destruct (index_all_ok class_names labels g Hlab) as [t1 Et1].
    destruct (index_all_ok class_names (torch_max out) g) as [t2 Et2].
    { unfold torch_max. rewrite Hrows. rewrite <- list_fmap_compose.
      apply Forall_fmap, Forall_forall. intros x _. apply Hpred. }
    assert (Hne : inputs <> []) by (intros ->; simpl in Hb; lia).
    unfold bind at 1. cbn [tell].
    unfold bind at 1. rewrite (show_databatch_run _ _ _ _ Hne Et1).
    unfold bind at 1. cbn [tell].
    unfold bind at 1. rewrite (show_databatch_run _ _ _ _ Hne Et2).
    unfold bind at 1. cbn [tell].
    set (s1 := (sofar + Z.of_nat (length inputs))%Z).
    cbn [sum_list_with fst].
    destruct (Z.leb_spec n s1) as [Hle | Hgt].
    + eexists _, s1. split; [reflexivity |].
      unfold images_shown. simpl. subst s1. lia.
    + destruct (IH s1) as (l & d & E & Hshown & Hb1 & Hb2 & Hb3).
      rewrite E. eexists _, d. split; [reflexivity |].
      rewrite !images_shown_app. unfold images_shown in *.
      simpl. subst s1. lia.
Qed.

(** However the loop ends, if it returns it returns the model it was
    given. *)
Lemma visualize_loop_model (vgg : VGG) n loader sofar g l d vgg' g' :
  training vgg = false ->
  visualize_loop class_names vgg n loader sofar g = (l, Ok (d, vgg', g')) ->
  vgg' = vgg.
Proof.
  intros Ht. revert sofar l.
  induction loader as [| [inputs labels] rest IH]; intros sofar l E.
  - inversion E. reflexivity.
  - destruct (call_eval vgg inputs true g Ht) as (out & Ecall & _ & _).
    cbn [visualize_loop] in E. unfold bind at 1 in E. rewrite Ecall in E.
    unfold bind at 1 in E.
    destruct (index_all (torch_max out) (seq 0 (length inputs)) g)
      as [tr0 r0] eqn:E0.
    destruct (index_all_inv _ _ _ _ _ E0) as [-> [-> | [pl ->]]];
      [discriminate |].
    unfold bind at 1 in E. cbn [tell] in E. unfold bind at 1 in E.
    destruct (show_databatch class_names inputs labels g) as [tr1 r1] eqn:E1.
    destruct (show_databatch_inv _ _ _ _ _ E1) as [[e1 ->] | (t1 & -> & ->)];
      [discriminate |].
    unfold bind at 1 in E. cbn [tell] in E. unfold bind at 1 in E.
    destruct (show_databatch class_names inputs pl g) as [tr2 r2] eqn:E2.
    destruct (show_databatch_inv _ _ _ _ _ E2) as [[e2 ->] | (t2 & -> & ->)];
      [discriminate |].
    unfold bind at 1 in E. cbn [tell] in E.
    destruct (n <=? sofar + Z.of_nat (length inputs))%Z.
    + inversion E. reflexivity.
    + destruct (visualize_loop class_names vgg n rest
                  (sofar + Z.of_nat (length inputs))%Z g)
        as [l2 [[[d2 v2] g2] | e2]] eqn:E3; [| discriminate].
      inversion E; subst. eapply IH. exact E3.
Qed.

Lemma fetch_labels (P : nat -> Prop) (dataset : list sample) (idx : list nat) :
  Forall (fun s : sample => P s.2) dataset -> Forall P (fetch dataset idx).2.
Proof.
  intros HP. unfold fetch. cbn [snd]. apply Forall_fmap, Forall_forall.
  intros s Hs. apply list_elem_of_omap in Hs as (i & _ & Hi).
  rewrite Forall_forall in HP. apply HP.
  apply list_elem_of_lookup. eauto.
Qed.

Lemma batches_of_labels (P : nat -> Prop) (dataset : list sample) g :
  Forall (fun s : sample => P s.2) dataset ->
  Forall (fun b : batch => Forall P b.2) (batches_of dataset g).
Proof.
  intros HP. unfold batches_of. apply Forall_fmap, Forall_forall.
  intros b _. apply fetch_labels, HP.
Qed.

Lemma visualize_model_spec (vgg : VGG) n g :
  (forall x, argmax (net_eval (state_dict vgg) x) < length class_names) ->
  Forall (fun s : sample => s.2 < length class_names) (image_datasets TEST) ->
  exists l d,
    visualize_model image_datasets class_names vgg n g
    = (l, Ok (PyNone, train (training vgg) (train false (train false vgg)),
              (randperm g (length (image_datasets TEST))).2)) /\
    images_shown l = 2 * d /\
    (Z.min n (Z.of_nat (dataset_sizes image_datasets TEST)) <= Z.of_nat d
     <= Z.max n 1 + 7)%Z.
Proof.
  intros Hpred Hlab.
  unfold visualize_model, dataloaders, bind.
  rewrite DataLoader_iter_run.
  destruct (visualize_loop_spec (train false (train false vgg)) n
              (batches_of (image_datasets TEST) g) 0%Z
              (randperm g (length (image_datasets TEST))).2 eq_refl Hpred)
    as (l & d & E & Hshown & Hb1 & Hb2 & Hb3).
  { pose proof (batches_of_sizes (image_datasets TEST) g) as Hs.
    pose proof (batches_of_labels (fun y => y < length class_names)
                  (image_datasets TEST) g Hlab) as Hl.
    rewrite Forall_forall in Hs, Hl. apply Forall_forall.
    intros b Hb. split; [apply (Hs b Hb) | apply (Hl b Hb)]. }
  rewrite E. rewrite batches_of_total in Hb2, Hb3.
  exists ([] ++ l ++ []), (Z.to_nat d). split; [reflexivity |].
  rewrite app_nil_r. simpl. unfold dataset_sizes. lia.
Qed.

(** C9.  Whenever [visualize_model] returns, the model's training flag
    is the flag on entry; and it does return when every test label and
    every prediction names a class. *)
Theorem visualize_model_restores_mode (vgg : VGG) (num_images : Z) g :
  (forall l v vgg' g',
      visualize_model image_datasets class_names vgg num_images g
      = (l, Ok (v, vgg', g')) ->
      training vgg' = training vgg) /\
  ((forall x, argmax (net_eval (state_dict vgg) x) < length class_names) ->
   Forall (fun s : sample => s.2 < length class_names) (image_datasets TEST) ->
   exists l vgg' g',
     visualize_model image_datasets class_names vgg num_images g
     = (l, Ok (PyNone, vgg', g')) /\
     training vgg' = training vgg).
Proof.
  split.
  - intros l v vgg' g' E.
    unfold visualize_model, dataloaders in E.
    unfold bind at 1 in E. rewrite DataLoader_iter_run in E.
    unfold bind at 1 in E.
    destruct (visualize_loop class_names (train false (train false vgg))
                num_images (batches_of (image_datasets TEST) g) 0%Z
                (randperm g (length (image_datasets TEST))).2)
      as [l2 [[[d2 v2] g2] | e2]] eqn:E2; [| discriminate].
    apply visualize_loop_model in E2; [| reflexivity]. subst v2.
    unfold ret in E. inversion E. reflexivity.
  - intros Hpred Hlab.
    destruct (visualize_model_spec vgg num_images g Hpred Hlab)
      as (l & d & E & _).
    rewrite E. do 3 eexists. split; reflexivity.
Qed.

(** C8, as the code has it.  [visualize_model] shows whole batches and
    stops after the first batch with which the running count reaches
    [num_images].  When every test label and every prediction names a
    class it returns, and the number of images displayed is at least the
    smaller of [num_images] and the size of the test split, and at most
    [max num_images 1 + 7] with batches of 8; it can exceed
    [num_images]. *)
Theorem visualize_model_display_bounds (vgg : VGG) (num_images : Z) g :
  (forall x, argmax (net_eval (state_dict vgg) x) < length class_names) ->
  Forall (fun s : sample => s.2 < length class_names) (image_datasets TEST) ->
  exists l r,
    visualize_model image_datasets class_names vgg num_images g = (l, Ok r) /\
    images_shown l = 2 * images_displayed l /\
    (Z.min num_images (Z.of_nat (dataset_sizes image_datasets TEST))
     <= Z.of_nat (images_displayed l)
     <= Z.max num_images 1 + 7)%Z.
Proof.
  intros Hpred Hlab.
  destruct (visualize_model_spec vgg num_images g Hpred Hlab)
    as (l & d & E & Hshown & Hb).
  rewrite E. do 2 eexists. split; [reflexivity |].
  unfold images_displayed. rewrite Hshown, Nat.div2_double.
  split; [reflexivity | exact Hb].
Qed.
End Visualize.

Section AdapterTheorems.
Context `{Torch}.
Variable class_names : list string.

(** C6.  When the classifier has seven children and the last one is a
    linear layer of input width [k], the model creation cell returns a
    model whose classifier keeps the first six children and ends in a
    newly constructed linear layer of input width [k] and of as many
    outputs as there are class names; its weight and bias are the freshly
    drawn ones, trainable and without gradient. *)
Theorem model_adapter_replaces_head (vgg16 : VGG) front k o w b g :
  classifier vgg16 = front ++ [Linear k o w b] ->
  length front = 6 ->
  exists l vgg' g',
    model_adapter class_names vgg16 g = (l, Ok (vgg', g')) /\
    let n := Z.of_nat (length class_names) in
    let init := linear_init g k n in
    classifier vgg' =
      front ++ [Linear k n (nn_Parameter init.1.1) (nn_Parameter init.1.2)] /\
    g' = init.2.
Proof.
  intros Hc Hlen. unfold model_adapter, bind.
  rewrite (classifier_6_last vgg16 front k o w b g Hc Hlen). simpl.
  match goal with
  | |- context [classifier_6 ?v g] =>
      rewrite (classifier_6_last v front k o w b g Hc Hlen)
  end.
  unfold nn_Linear, lift_rng.
  destruct (linear_init g k (Z.of_nat (length class_names)))
    as [[w0 b0] g3] eqn:E3.
  simpl. do 3 eexists. split; [reflexivity |].
  simpl. rewrite Hc, removelast_last. split; reflexivity.
Qed.
End AdapterTheorems.


(** * The evaluation routine *)



Section Evaluate.
Context `{Torch}.
Variable image_datasets : split -> list sample.


Lemma when_run (b : bool) (e : event) g :
  when b (tell e) g = ((if b then [e] else []), Ok (tt, g)).
Proof. destruct b; reflexivity. Qed.



End Evaluate.

(** * Evaluation and the order of the batches *)

Section BatchOrder.
Context `{Torch}.



Lemma omap_cons_Some {A B} (f : A -> option B) x y l :
  f x = Some y -> omap f (x :: l) = y :: omap f l.
Proof. intros E. simpl. rewrite E. reflexivity. Qed.

Lemma omap_lookup_seq_app {A} (l1 l2 : list A) :
  omap (fun i => (l1 ++ l2) !! i) (seq (length l1) (length l2)) = l2.
Proof.
  revert l1. induction l2 as [| x l2 IH]; intros l1; [reflexivity |].
  cbn [length seq].
  rewrite (omap_cons_Some _ _ x) by (apply list_lookup_middle; reflexivity).
  f_equal.
  specialize (IH (l1 ++ [x])). rewrite <- app_assoc in IH. cbn [app] in IH.
  rewrite length_app in IH. cbn [length] in IH.
  rewrite Nat.add_1_r in IH. exact IH.
Qed.

Lemma omap_lookup_seq {A} (l : list A) :
  omap (fun i => l !! i) (seq 0 (length l)) = l.
Proof. apply (omap_lookup_seq_app [] l). Qed.

(** The samples of one pass are the data set, in some order. *)
Lemma pass_permutation (dataset : list sample) g :
  Permutation
    (omap (fun i => dataset !! i) (randperm g (length dataset)).1) dataset.
Proof.
  rewrite (randperm_perm g (length dataset)).
  rewrite omap_lookup_seq. reflexivity.
Qed.










End BatchOrder.

Section EvaluateTwice.
Context `{Torch}.
Variable image_datasets : split -> list sample.

End EvaluateTwice.

(** * The training loop *)

Lemma half_break (train_batches i : nat) :
  Qle_bool (Qnat train_batches / 2) (Qnat i) = true <-> train_batches <= 2 * i.
Proof.
  rewrite Qle_bool_iff. unfold Qnat, Qle, Qdiv, Qmult, Qinv. simpl. lia.
Qed.


Section TrainingSteps.
Context `{Torch}.

Lemma fmap_imap_flags (f : nat -> Param -> Param) (ps : list Param) :
  (forall i p, requires_grad (f i p) = requires_grad p) ->
  requires_grad <$> imap f ps = requires_grad <$> ps.
Proof.
  intros Hf. revert f Hf. induction ps as [| p ps IH]; intros f Hf.
  - reflexivity.
  - simpl. rewrite Hf. f_equal. apply IH. intros i q. apply Hf.
Qed.

(** A traversal that leaves every flag alone leaves the shape alone. *)
Lemma shape_map_parameters f (vgg : VGG) :
  (forall i p, requires_grad (f i p) = requires_grad p) ->
  shape (map_parameters f vgg) = shape vgg.
Proof.
  intros Hf. unfold shape.
  rewrite parameters_map_parameters, fmap_imap_flags by exact Hf.
  reflexivity.
Qed.

Lemma shape_trainable (vgg vgg' : VGG) :
  shape vgg' = shape vgg -> trainable vgg' = trainable vgg.
Proof.
  unfold shape, trainable. intros E. injection E as E1 _.
  assert (Hx : forall l : list Param,
             existsb requires_grad l = existsb id (requires_grad <$> l)).
  { induction l as [| p l IH]; [reflexivity |].
    rewrite fmap_cons. cbn [existsb]. rewrite IH. reflexivity. }
  rewrite !Hx, E1. reflexivity.
Qed.




Lemma zero_grad_run (vgg : VGG) g :
  zero_grad vgg g
  = ([ZeroGrad],
     Ok (map_parameters (fun _ p => set_grad p (zeros_like <$> grad p)) vgg, g)).
Proof. reflexivity. Qed.

Lemma zero_grad_shape (vgg : VGG) :
  shape (map_parameters (fun _ p => set_grad p (zeros_like <$> grad p)) vgg)
  = shape vgg.
Proof. apply shape_map_parameters. reflexivity. Qed.


(** A forward pass in training mode keeps the parameters, rewrites the
    running statistics and advances the generator. *)
Lemma call_train (vgg : VGG) inputs volatile g :
  training vgg = true ->
  exists out,
    call vgg inputs volatile g
    = ([Forward true volatile (length inputs)],
       Ok (out,
           set_buffers vgg
             (imap (bn_update (state_dict vgg) inputs) (features_buffers vgg)),
           dropout_advance g)) /\
    (volatile = false -> trainable vgg = true ->
     exists gr, graph out = Some gr) /\
    (trainable vgg = false -> graph out = None).
Proof.
  intros Ht. unfold call, bind, tell. rewrite Ht.
  eexists. split; [reflexivity |]. split.
  - intros -> Hg. simpl. rewrite Hg. eauto.
  - intros Hg. simpl. rewrite Hg. destruct volatile; reflexivity.
Qed.

End TrainingSteps.

Section Validation.
Context `{Torch}.







End Validation.

Section Epoch.
Context `{Torch}.
Variable image_datasets : split -> list sample.







End Epoch.

(** * The epoch loop and the best snapshot *)



Section BestSnapshot.
Context `{Torch}.
Variable image_datasets : split -> list sample.
Variable criterion : Criterion.
Variable optimizer : Optimizer.

End BestSnapshot.

Section TrainModel.
Context `{Torch}.
Variable image_datasets : split -> list sample.
Variable criterion : Criterion.
Variable optimizer : Optimizer.




End TrainModel.

(** * Further properties of the notebook *)

(** ** The loaders *)

Section LoaderPass.
Context `{Torch}.
Variable image_datasets : split -> list sample.

Lemma batch_sampler_lengths {A} (idx cur : list A) :
  length cur < batch_size ->
  length <$> batch_sampler batch_size idx cur
  = batch_sizes (length cur + length idx).
Proof.
  unfold batch_sizes, batch_size. revert cur.
  induction idx as [| i idx IH]; intros cur Hcur; cbn [batch_sampler length].
  - rewrite Nat.add_0_r.
    replace (length cur / 8) with 0 by lia.
    replace (length cur mod 8) with (length cur) by lia.
    destruct (Nat.ltb_spec 0 (length cur)) as [Hpos | Hz].
    + destruct (Nat.eqb_spec (length cur) 0); [lia | reflexivity].
    + destruct (Nat.eqb_spec (length cur) 0); [reflexivity | lia].
  - rewrite length_app. cbn [length].
    destruct (Nat.eqb_spec (length cur + 1) 8) as [E | NE].
    + rewrite fmap_cons, IH by (cbn [length]; lia).
      rewrite length_app. cbn [length].
      replace ((length cur + S (length idx)) / 8)
        with (S ((0 + length idx) / 8)) by lia.
      replace ((length cur + S (length idx)) mod 8)
        with ((0 + length idx) mod 8) by lia.
      rewrite E. reflexivity.
    + rewrite IH by (rewrite length_app; cbn [length]; lia).
      rewrite length_app. cbn [length].
      replace (length cur + 1 + length idx)
        with (length cur + S (length idx)) by lia.
      reflexivity.
Qed.

Lemma fetch_sizes (dataset : list sample) (bss : list (list nat)) :
  Forall (Forall (fun i => i < length dataset)) bss ->
  (fun b : batch => length b.1) <$> (fetch dataset <$> bss) = length <$> bss.
Proof.
  induction 1 as [| b bss Hb _ IH]; [reflexivity |].
  rewrite !fmap_cons, IH.
  destruct (fetch_length dataset b Hb) as [E1 _]. rewrite E1. reflexivity.
Qed.

Lemma batches_of_batch_sizes (dataset : list sample) g :
  (fun b : batch => length b.1) <$> batches_of dataset g
  = batch_sizes (length dataset).
Proof.
  unfold batches_of. rewrite fetch_sizes.
  - rewrite batch_sampler_lengths by (unfold batch_size; simpl; lia).
    rewrite randperm_length. reflexivity.
  - apply batch_indices_range. simpl. apply randperm_range.
Qed.

Lemma fetch_samples (dataset : list sample) (bss : list (list nat)) :
  concat (batch_samples <$> (fetch dataset <$> bss))
  = omap (fun i => dataset !! i) (concat bss).
Proof.
  induction bss as [| b bss IH]; [reflexivity |].
  rewrite !fmap_cons. cbn [concat]. rewrite omap_app, IH. f_equal.
  unfold batch_samples, fetch. cbn [fst snd]. apply zip_fst_snd.
Qed.

(** X1.  One pass over the loader of a split, as the notebook sets it
    up (batches of 8, shuffled, nothing dropped), draws one order from
    the generator and yields [len(dataloaders[x])] batches.  All batches
    hold 8 images except a last one with the remainder, and every batch
    has as many labels as images.  The batches are consecutive pieces of
    the order drawn: laid end to end, their samples are the samples of
    the split at the indices of that order, one after the other.  So
    they are the samples of the split, none dropped and none repeated. *)
Theorem loader_pass (x : split) g :
  exists batches,
    dataloaders image_datasets x g
    = ([], Ok (batches, (randperm g (dataset_sizes image_datasets x)).2)) /\
    length batches = DataLoader_len (image_datasets x) /\
    (fun b : batch => length b.1) <$> batches
    = batch_sizes (dataset_sizes image_datasets x) /\
    Forall (fun b : batch => length b.2 = length b.1) batches /\
    concat (batch_samples <$> batches)
    = omap (fun i => image_datasets x !! i)
        (randperm g (dataset_sizes image_datasets x)).1 /\
    Permutation (concat (batch_samples <$> batches)) (image_datasets x).
Proof.
  exists (batches_of (image_datasets x) g).
  split; [apply DataLoader_iter_run |].
  split; [apply batches_of_length |].
  split; [apply batches_of_batch_sizes |].
  split.
  { eapply Forall_impl; [apply batches_of_sizes |].
    intros b Hb. apply Hb. }
  assert (E : concat (batch_samples <$> batches_of (image_datasets x) g)
              = omap (fun i => image_datasets x !! i)
                  (randperm g (dataset_sizes image_datasets x)).1).
  { unfold batches_of. rewrite fetch_samples, batch_sampler_concat.
    reflexivity. }
  split; [exact E |].
  rewrite E. apply pass_permutation.
Qed.
End LoaderPass.

(** ** Utils *)

Section ShowDatabatch.
Context `{Torch}.
Variable class_names : list string.

(** X2.  On an empty batch [show_databatch] raises
    [ZeroDivisionError] from [make_grid], whatever the classes are, and
    shows nothing.  On a batch with at least one image it shows one grid
    when every class index is below the number of class names; its title
    then has one name per index, the name at that index.  With one index
    out of range it raises [IndexError] and shows nothing. *)
Theorem show_databatch_bounds (inputs : list image) (classes : list nat) g :
  (inputs = [] ->
   show_databatch class_names inputs classes g
   = ([], Raise ZeroDivisionError)) /\
  (inputs <> [] ->
   Forall (fun c => c < length class_names) classes ->
   exists title,
     show_databatch class_names inputs classes g
     = ([ShowDatabatch (length inputs) title], Ok (tt, g)) /\
     length title = length classes /\
     forall i c, classes !! i = Some c -> title !! i = class_names !! c) /\
  (inputs <> [] ->
   Exists (fun c => length class_names <= c) classes ->
   show_databatch class_names inputs classes g = ([], Raise IndexError)).
Proof.
  split; [intros ->; reflexivity |]. split.
  - intros Hne Hok. unfold show_databatch. unfold bind at 1.
    rewrite (make_grid_run inputs g Hne). unfold index_all, bind.
    destruct (mapM_is_Some_2 (fun x => class_names !! x) classes)
      as [title E].
    { eapply Forall_impl; [exact Hok |].
      intros c Hc. apply lookup_lt_is_Some_2, Hc. }
    rewrite E. exists title. split; [reflexivity |].
    pose proof (mapM_Some_1 _ _ _ E) as H2.
    split; [symmetry; apply (Forall2_length _ _ _ H2) |].
    intros i c Hi.
    destruct (Forall2_lookup_l _ _ _ _ _ H2 Hi) as (s & Hs & Hc).
    rewrite Hs, Hc. reflexivity.
  - intros Hne Hbad. unfold show_databatch. unfold bind at 1.
    rewrite (make_grid_run inputs g Hne). unfold index_all, bind.
    rewrite (mapM_None_2 (fun x => class_names !! x) classes);
      [reflexivity |].
    eapply Exists_impl; [exact Hbad |].
    intros c Hc. apply lookup_ge_None_2, Hc.
Qed.
End ShowDatabatch.

(** ** The model creation cell, further *)

Section AdapterFrame.
Context `{Torch}.
Variable class_names : list string.

(** X3.  When [vgg16.classifier] has fewer than seven children the
    model creation cell raises [IndexError], and when its child 6 is not
    a linear layer the cell raises [AttributeError]; in both cases nothing
    has been printed. *)
Theorem model_adapter_errors (vgg16 : VGG) g :
  (length (classifier vgg16) <= 6 ->
   model_adapter class_names vgg16 g = ([], Raise IndexError)) /\
  (classifier vgg16 !! 6 = Some ReLU \/ classifier vgg16 !! 6 = Some Dropout ->
   model_adapter class_names vgg16 g = ([], Raise AttributeError)).
Proof.
  unfold model_adapter, bind, classifier_6. split.
  - intros Hlen. rewrite (lookup_ge_None_2 _ _ Hlen). reflexivity.
  - intros [E | E]; rewrite E; reflexivity.
Qed.

(** X4.  When child 6 of the classifier is a linear layer of input width
    [k], the cell returns: it has printed the old output width and the
    new model, the classifier is the old one without its last child
    followed by the new linear layer of input width [k], and the data and
    flags of the backbone parameters, the running statistics and the mode
    are the ones given. *)
Theorem model_adapter_frame (vgg16 : VGG) k o w b g :
  classifier vgg16 !! 6 = Some (Linear k o w b) ->
  exists vgg' fc,
    model_adapter class_names vgg16 g
    = ([PrintInt o; PrintModel (linear_widths (classifier vgg'))],
       Ok (vgg', (linear_init g k (Z.of_nat (length class_names))).2)) /\
    nn_Linear k (Z.of_nat (length class_names)) g
    = ([], Ok (fc, (linear_init g k (Z.of_nat (length class_names))).2)) /\
    classifier vgg' = removelast (classifier vgg16) ++ [fc] /\
    data <$> features vgg' = data <$> features vgg16 /\
    requires_grad <$> features vgg' = requires_grad <$> features vgg16 /\
    features_buffers vgg' = features_buffers vgg16 /\
    training vgg' = training vgg16.
Proof.
  intros E6. unfold model_adapter, bind, classifier_6. rewrite E6.
  cbn [ret tell set_features classifier]. rewrite E6.
  unfold nn_Linear, lift_rng. cbn beta.
  destruct (linear_init g k (Z.of_nat (length class_names)))
    as [[w0 b0] g1] eqn:E3.
  cbn [ret tell app snd]. rewrite ?E3. cbn [app snd]. do 2 eexists.
  split; [reflexivity |]. split; [reflexivity |].
  cbn [classifier features features_buffers training set_classifier
         set_features].
  rewrite <- !list_fmap_compose.
  repeat split; apply list_fmap_ext; reflexivity.
Qed.
End AdapterFrame.

(** ** The visualization utility, further *)

Lemma images_after_full (n : Z) (q : nat) (tail : list nat) (sofar : Z) :
  tail = [] \/ (exists r, tail = [r] /\ 0 < r < 8) ->
  images_after n (replicate q 8 ++ tail) sofar
  = Z.min (sofar + 8 * Z.of_nat q + Z.of_nat (sum_list tail))
      (sofar + 8 * Z.max 1 ((n - sofar + 7) / 8)).
Proof.
  intros Htail. revert sofar. induction q as [| q IH]; intros sofar.
  - cbn [replicate app].
    destruct Htail as [-> | (r & -> & Hr)]; cbn [images_after sum_list_with].
    + lia.
    + destruct (Z.leb_spec n (sofar + Z.of_nat r)); unfold id; lia.
  - cbn [replicate app images_after].
    destruct (Z.leb_spec n (sofar + Z.of_nat 8)) as [Hle | Hgt].
    + lia.
    + rewrite IH. lia.
Qed.

Lemma images_after_batch_sizes (n : Z) (m : nat) :
  images_after n (batch_sizes m) 0
  = Z.min (Z.of_nat m) (8 * Z.max 1 ((n + 7) / 8)).
Proof.
  unfold batch_sizes, batch_size. rewrite images_after_full.
  - destruct (Nat.eqb_spec (m mod 8) 0); cbn [sum_list_with]; unfold id.
    + replace (n - 0 + 7)%Z with (n + 7)%Z by lia. lia.
    + replace (n - 0 + 7)%Z with (n + 7)%Z by lia. lia.
  - destruct (Nat.eqb_spec (m mod 8) 0); [left; reflexivity |].
    right. exists (m mod 8). split; [reflexivity | lia].
Qed.

Section VisualizeFurther.
Context `{Torch}.
Variable image_datasets : split -> list sample.
Variable class_names : list string.

Lemma visualize_loop_count (vgg : VGG) n loader sofar g :
  training vgg = false ->
  (forall x, argmax (net_eval (state_dict vgg) x) < length class_names) ->
  Forall (fun b : batch => b.1 <> [] /\
                           Forall (fun y => y < length class_names) b.2)
    loader ->
  exists l,
    visualize_loop class_names vgg n loader sofar g
    = (l, Ok (images_after n ((fun b : batch => length b.1) <$> loader) sofar,
              vgg, g)) /\
    Z.of_nat (images_shown l)
    = (2 * (images_after n ((fun b : batch => length b.1) <$> loader) sofar
            - sofar))%Z.
Proof.
  intros Ht Hpred Hlabs. revert sofar.
  induction Hlabs as [| [inputs labels] rest [Hne Hlab] _ IH]; intros sofar.
  - exists []. split; [reflexivity |]. simpl. lia.
  - simpl in Hne, Hlab.
    destruct (call_eval vgg inputs true g Ht) as (out & Ecall & Hrows & _).
    cbn [visualize_loop]. unfold bind at 1. rewrite Ecall.
    assert (Hlen : length inputs = length (torch_max out)).
    { unfold torch_max. rewrite Hrows, !length_fmap. reflexivity. }
    rewrite Hlen. unfold bind at 1. rewrite index_all_seq. rewrite <- Hlen.
    destruct (index_all_ok class_names labels g Hlab) as [t1 Et1].
    destruct (index_all_ok class_names (torch_max out) g) as [t2 Et2].
    { unfold torch_max. rewrite Hrows. rewrite <- list_fmap_compose.
      apply Forall_fmap, Forall_forall. intros x _. apply Hpred. }
    unfold bind at 1. cbn [tell].
    unfold bind at 1. rewrite (show_databatch_run _ _ _ _ _ Hne Et1).
    unfold bind at 1. cbn [tell].
    unfold bind at 1. rewrite (show_databatch_run _ _ _ _ _ Hne Et2).
    unfold bind at 1. cbn [tell].
    rewrite fmap_cons. cbn [images_after fst].
    set (s1 := (sofar + Z.of_nat (length inputs))%Z).
    destruct (Z.leb_spec n s1) as [Hle | Hgt].
    + eexists. split; [reflexivity |].
      unfold images_shown. simpl. subst s1. lia.
    + destruct (IH s1) as (l & E & Hshown).
      rewrite E. eexists. split; [reflexivity |].
      rewrite !images_shown_app. unfold images_shown in *.
      simpl. subst s1. lia.
Qed.

(** X5.  When every test label and every prediction names a class,
    [visualize_model] returns after displaying exactly
    [min(test size, 8 * max(1, ceil(num_images / 8)))] images: it rounds
    the requested count up to whole batches of 8, shows one batch even
    when asked for none, and stops at the end of the test split. *)
Theorem visualize_model_count (vgg : VGG) (num_images : Z) g :
  (forall x, argmax (net_eval (state_dict vgg) x) < length class_names) ->
  Forall (fun s : sample => s.2 < length class_names) (image_datasets TEST) ->
  exists l r,
    visualize_model image_datasets class_names vgg num_images g = (l, Ok r) /\
    Z.of_nat (images_displayed l)
    = Z.min (Z.of_nat (dataset_sizes image_datasets TEST))
        (8 * Z.max 1 ((num_images + 7) / 8)).
Proof.
  intros Hpred Hlab.
  destruct (visualize_loop_count (train false (train false vgg)) num_images
              (batches_of (image_datasets TEST) g) 0%Z
              (randperm g (length (image_datasets TEST))).2 eq_refl Hpred)
    as (l & E & Hshown).
  { pose proof (batches_of_sizes (image_datasets TEST) g) as Hs.
    pose proof (batches_of_labels (fun y => y < length class_names)
                  (image_datasets TEST) g Hlab) as Hl.
    rewrite Forall_forall in Hs, Hl. apply Forall_forall.
    intros b Hb. split; [| apply (Hl b Hb)].
    destruct (Hs b Hb) as [[Hpos _] _]. intros E. rewrite E in Hpos.
    simpl in Hpos. lia. }
  rewrite batches_of_batch_sizes, images_after_batch_sizes in E, Hshown.
  unfold visualize_model, dataloaders.
  unfold bind at 1. rewrite DataLoader_iter_run.
  unfold bind at 1. rewrite E. unfold ret. cbn [app].
  do 2 eexists. split; [reflexivity |].
  rewrite app_nil_r. unfold images_displayed, dataset_sizes.
  set (d := Z.min (Z.of_nat (length (image_datasets TEST)))
              (8 * Z.max 1 ((num_images + 7) / 8))) in *.
  assert (Hd : images_shown l = 2 * Z.to_nat d) by lia.
  rewrite Hd, Nat.div2_double. lia.
Qed.

(** X6.  Whenever [visualize_model] returns, its value is [None] and
    the model is the model it was given: no parameter, gradient, running
    statistic or flag has changed. *)
Theorem visualize_model_frame (vgg : VGG) (num_images : Z) g l v vgg' g' :
  visualize_model image_datasets class_names vgg num_images g
  = (l, Ok (v, vgg', g')) ->
  v = PyNone /\ vgg' = vgg.
Proof.
  intros E. unfold visualize_model, dataloaders in E.
  unfold bind at 1 in E. rewrite DataLoader_iter_run in E.
  unfold bind at 1 in E.
  destruct (visualize_loop class_names (train false (train false vgg))
              num_images (batches_of (image_datasets TEST) g) 0%Z
              (randperm g (length (image_datasets TEST))).2)
    as [l2 [[[d2 v2] g2] | e2]] eqn:E2; [| discriminate].
  apply visualize_loop_model in E2; [| reflexivity]. subst v2.
  unfold ret in E. inversion E. split; [reflexivity |].
  destruct vgg; reflexivity.
Qed.
End VisualizeFurther.

(** ** The evaluation routine, further *)

Section EvaluateFurther.
Context `{Torch}.
Variable image_datasets : split -> list sample.




Lemma batches_of_nonempty (dataset : list sample) g :
  dataset <> [] -> batches_of dataset g <> [].
Proof.
  intros Hne E. apply (f_equal length) in E.
  rewrite batches_of_length in E. unfold DataLoader_len, batch_size in E.
  destruct dataset; [congruence |]. simpl in E. lia.
Qed.





End EvaluateFurther.

(** * Training, further *)

Section Frozen.
Context `{Torch}.








End Frozen.

Section TrainFurther.
Context `{Torch}.
Variable image_datasets : split -> list sample.
Variable criterion : Criterion.
Variable optimizer : Optimizer.










Lemma set_data_same (p : Param) : set_data p (data p) = p.
Proof. destruct p; reflexivity. Qed.





Lemma set_layer_parameters_same (ls : list Layer) :
  set_layer_parameters ls (flat_map layer_parameters ls) = ls.
Proof.
  induction ls as [| [i o w b | |] ls IH]; simpl; congruence.
Qed.

Lemma zip_with_set_data_same (ps : list Param) :
  zip_with set_data ps (data <$> ps) = ps.
Proof.
  induction ps as [| p ps IH]; [reflexivity |].
  rewrite fmap_cons. cbn [zip_with]. rewrite set_data_same, IH. reflexivity.
Qed.

(** Loading its own state dictionary into a model changes nothing. *)
Lemma load_state_dict_self (vgg : VGG) :
  load_state_dict vgg (state_dict vgg) = Ok vgg.
Proof.
  unfold load_state_dict. rewrite Nat.eqb_refl. unfold state_dict.
  assert (Et : take (length (parameters vgg))
                 ((data <$> parameters vgg) ++ features_buffers vgg)
               = data <$> parameters vgg).
  { rewrite <- (length_fmap data (parameters vgg)). apply take_app_length. }
  assert (Ed : drop (length (parameters vgg))
                 ((data <$> parameters vgg) ++ features_buffers vgg)
               = features_buffers vgg).
  { rewrite <- (length_fmap data (parameters vgg)). apply drop_app_length. }
  cbv zeta. rewrite Et, Ed, zip_with_set_data_same.
  unfold set_parameters, parameters. cbn [features classifier training].
  rewrite take_app_length, drop_app_length, set_layer_parameters_same.
  destruct vgg; reflexivity.
Qed.

(** X15.  With [num_epochs = 0] the loop body never runs, on any data:
    [train_model] draws no batch, prints a best accuracy of 0 after the
    elapsed time, reloads the snapshot taken on entry and returns the
    model exactly as it was given. *)
Theorem train_model_no_epochs (vgg : VGG) scheduler g :
  train_model image_datasets vgg criterion optimizer scheduler 0 g
  = ([Print ""; PrintElapsed "Training completed in";
      PrintMetric "Best acc" 0],
     Ok (vgg, g)).
Proof.
  unfold train_model. cbn [epoch_loop]. unfold deepcopy.
  unfold bind at 1. unfold ret at 1.
  unfold bind at 1. cbn [tell]. unfold bind at 1. cbn [tell].
  unfold bind at 1. cbn [tell]. unfold bind at 1.
  rewrite load_state_dict_self. reflexivity.
Qed.
Lemma train_loop_untrainable tb inputs labels rest loss acc (vgg : VGG) g :
  training vgg = true ->
  trainable vgg = false ->
  0 < tb ->
  train_loop criterion optimizer tb 0 ((inputs, labels) :: rest) loss acc
    vgg g
  = ([PrintBatch "Training batch" 0 (Qnat tb / 2)%Q; ZeroGrad;
      Forward true false (length inputs); Backward],
     Raise RuntimeError).
Proof.
  intros Ht Hg Htb. cbn [train_loop]. unfold bind at 1. rewrite when_run.
  replace (0 mod 100 =? 0) with true by reflexivity.
  destruct (Qle_bool (Qnat tb / 2) (Qnat 0)) eqn:Hbreak.
  { apply half_break in Hbreak. lia. }
  unfold bind at 1. rewrite zero_grad_run.
  pose proof (zero_grad_shape vgg) as S1.
  set (vgg1 := map_parameters _ vgg) in *.
  assert (Ht1 : training vgg1 = true) by exact Ht.
  assert (Hg1 : trainable vgg1 = false)
    by (rewrite (shape_trainable _ _ S1); exact Hg).
  destruct (call_train vgg1 inputs false g Ht1) as (out & Ecall & _ & Hnone).
  unfold bind at 1. rewrite Ecall.
  unfold bind at 1. unfold backward at 1, bind at 1. cbn [tell].
  unfold apply_criterion at 1. cbn [loss_graph]. rewrite (Hnone Hg1).
  reflexivity.
Qed.

(** X16.  For a model none of whose parameters requires a gradient, on
    a non-empty training split and with at least one epoch, [train_model]
    does not return: it raises [RuntimeError] at the first
    [loss.backward()], after the header of the first epoch, one
    [zero_grad] and one training-mode forward pass on the first batch,
    and before any optimizer step. *)
Theorem train_model_untrainable (vgg : VGG) scheduler num_epochs g :
  image_datasets TRAIN <> [] ->
  trainable vgg = false ->
  0 < num_epochs ->
  exists inputs labels rest,
    batches_of (image_datasets TRAIN) g = (inputs, labels) :: rest /\
    train_model image_datasets vgg criterion optimizer scheduler num_epochs g
    = ([PrintEpoch 0 num_epochs; Print rule;
        PrintBatch "Training batch" 0
          (Qnat (DataLoader_len (image_datasets TRAIN)) / 2)%Q;
        ZeroGrad; Forward true false (length inputs); Backward],
       Raise RuntimeError).
Proof.
  intros Hne Hg Hpos.
  destruct num_epochs as [| n]; [lia |].
  pose proof (batches_of_nonempty _ g Hne) as Hb.
  pose proof (batches_of_length (image_datasets TRAIN) g) as Hlen.
  destruct (batches_of (image_datasets TRAIN) g)
    as [| [inputs labels] rest] eqn:Eb; [congruence |].
  exists inputs, labels, rest. split; [reflexivity |].
  assert (Htb : 0 < DataLoader_len (image_datasets TRAIN))
    by (rewrite <- Hlen; simpl; lia).
  unfold train_model. unfold bind at 1. cbn [epoch_loop].
  unfold bind at 1. unfold train_epoch.
  unfold bind at 1. cbn [tell]. unfold bind at 1. cbn [tell].
  unfold bind at 1. unfold train_phase, dataloaders.
  unfold bind at 1. rewrite DataLoader_iter_run, Eb.
  unfold bind at 1.
  rewrite (train_loop_untrainable _ inputs labels rest 0%Q 0
             (train true vgg) _ eq_refl Hg Htb).
  reflexivity.
Qed.
End TrainFurther.
(** * Concrete runs

    The statements below run the notebook on the small framework of
    [Toy]: the instances at which the theorems above apply, and the runs
    on which a property of the specification fails. *)

#[local] Existing Instance Toy.toy.

Lemma toy_predictions_in_range (sd : list Z) (x : Z) :
  argmax (net_eval sd x) < length Toy.class_names.
Proof.
  simpl. pose proof (Z.mod_pos_bound (x + hd 0%Z sd) 4 eq_refl). lia.
Qed.

Lemma toy_labels_in_range :
  Forall (fun s : sample => s.2 < length Toy.class_names)
    (Toy.image_datasets TEST).
Proof.
  apply Forall_forall. intros s Hs.
  apply list_elem_of_fmap in Hs as (i & -> & _). simpl. lia.
Qed.

(** ** The model creation cell *)

(** C6 at the VGG-shaped network and the four class names. *)
Lemma model_adapter_replaces_head_witness :
  exists l vgg' g',
    model_adapter Toy.class_names Toy.vgg16 0%nat = (l, Ok (vgg', g')) /\
    classifier vgg' =
      [Linear 25088 4096 (Toy.weight 1) (Toy.weight 2); ReLU; Dropout;
       Linear 4096 4096 (Toy.weight 3) (Toy.weight 4); ReLU; Dropout]
      ++ [Linear 4096 4 (nn_Parameter 4096%Z) (nn_Parameter 4%Z)] /\
    g' = 1%nat.
Proof.
  exact (model_adapter_replaces_head Toy.class_names Toy.vgg16
           [Linear 25088 4096 (Toy.weight 1) (Toy.weight 2); ReLU; Dropout;
            Linear 4096 4096 (Toy.weight 3) (Toy.weight 4); ReLU; Dropout]
           4096%Z 1000%Z (Toy.weight 5) (Toy.weight 6) 0%nat
           eq_refl eq_refl).
Defined.

(** C1.  On a network whose backbone parameter is trainable, as every
    parameter of a pretrained network is, the model creation cell
    returns a model whose backbone parameter is still trainable: the
    loop has stored [False] under the name [require_grad] in the
    parameter's dictionary, and [requires_grad] is unchanged.  Two epochs
    of [train_model] then return a model whose backbone weight has moved
    from 0 to -2. *)
Theorem model_adapter_backbone_still_trainable :
  exists l vgg' g',
    model_adapter Toy.class_names Toy.vgg16 0%nat = (l, Ok (vgg', g')) /\
    requires_grad <$> features vgg' = [true] /\
    (fun p => attrs p !! "require_grad") <$> features vgg'
    = [Some (PyBool false)] /\
    data <$> features vgg' = [0%Z] /\
    exists l2 vgg'' g'',
      train_model Toy.image_datasets vgg' CrossEntropyLoss Toy.sgd
        Toy.scheduler 2 g'
      = (l2, Ok (vgg'', g'')) /\
      data <$> features vgg'' = [(-2)%Z].
Proof.
  do 3 eexists. split; [vm_compute; reflexivity |].
  split; [reflexivity |]. split; [vm_compute; reflexivity |].
  split; [reflexivity |].
  do 3 eexists. split; [vm_compute; reflexivity | reflexivity].
Qed.

(** ** The visualization utility *)

(** C8 at six requested images and the nine test images. *)
Lemma visualize_model_display_bounds_witness :
  (forall x,
      argmax (net_eval (state_dict Toy.vgg16) x) < length Toy.class_names) /\
  Forall (fun s : sample => s.2 < length Toy.class_names)
    (Toy.image_datasets TEST) /\
  exists l r,
    visualize_model Toy.image_datasets Toy.class_names Toy.vgg16 6 0%nat
    = (l, Ok r) /\
    images_shown l = 2 * images_displayed l /\
    (Z.min 6 (Z.of_nat (dataset_sizes Toy.image_datasets TEST))
     <= Z.of_nat (images_displayed l)
     <= Z.max 6 1 + 7)%Z.
Proof.
  split; [exact (toy_predictions_in_range (state_dict Toy.vgg16)) |].
  split; [exact toy_labels_in_range |].
  exact (visualize_model_display_bounds Toy.image_datasets Toy.class_names
           Toy.vgg16 6 0%nat
           (toy_predictions_in_range (state_dict Toy.vgg16))
           toy_labels_in_range).
Defined.

(** C8 as the specification states it fails: asked for 6 images,
    [visualize_model] displays the whole first batch of 8. *)
Lemma visualize_model_exceeds_num_images :
  images_displayed
    (visualize_model Toy.image_datasets Toy.class_names Toy.vgg16 6 0%nat).1
  = 8 /\
  ~ (Z.of_nat
       (images_displayed
          (visualize_model Toy.image_datasets Toy.class_names
             Toy.vgg16 6 0%nat).1)
     <= 6)%Z.
Proof.
  assert (E : images_displayed
                (visualize_model Toy.image_datasets Toy.class_names
                   Toy.vgg16 6 0%nat).1
              = 8) by (vm_compute; reflexivity).
  rewrite E. split; [reflexivity | lia].
Qed.

(** C9 at the same call: the run returns with the flag it was given. *)
Lemma visualize_model_restores_mode_witness :
  exists l vgg' g',
    visualize_model Toy.image_datasets Toy.class_names Toy.vgg16 6 0%nat
    = (l, Ok (PyNone, vgg', g')) /\
    training vgg' = training Toy.vgg16.
Proof.
  exact (proj2 (visualize_model_restores_mode Toy.image_datasets
                  Toy.class_names Toy.vgg16 6 0%nat)
           (toy_predictions_in_range (state_dict Toy.vgg16))
           toy_labels_in_range).
Defined.

(** ** The evaluation routine *)





(** ** The training loop *)





(** ** Further properties, at the small framework *)

(** X2 at an empty batch, at two images of the first and the last
    class, and at one image whose class index is past the end of the
    names. *)
Lemma show_databatch_bounds_witness :
  @show_databatch Toy.toy Toy.class_names [] [0] 0%nat
  = ([], Raise ZeroDivisionError) /\
  (exists title,
      @show_databatch Toy.toy Toy.class_names [1%Z; 2%Z] [0; 3] 0%nat
      = ([ShowDatabatch 2 title], Ok (tt, 0%nat)) /\
      length title = 2 /\
      forall i c, [0; 3] !! i = Some c -> title !! i = Toy.class_names !! c) /\
  @show_databatch Toy.toy Toy.class_names [1%Z] [4] 0%nat
  = ([], Raise IndexError).
Proof.
  split; [| split].
  - apply (proj1 (@show_databatch_bounds Toy.toy Toy.class_names
                    [] [0] 0%nat)).
    reflexivity.
  - apply (proj1 (proj2 (@show_databatch_bounds Toy.toy Toy.class_names
                           [1%Z; 2%Z] [0; 3] 0%nat))).
    + discriminate.
    + repeat constructor.
  - apply (proj2 (proj2 (@show_databatch_bounds Toy.toy Toy.class_names
                           [1%Z] [4] 0%nat))).
    + discriminate.
    + constructor. simpl. lia.
Defined.

(** X3 at a classifier without children and at seven activations. *)
Lemma model_adapter_errors_witness :
  model_adapter Toy.class_names (set_classifier Toy.vgg16 []) 0%nat
  = ([], Raise IndexError) /\
  model_adapter Toy.class_names
    (set_classifier Toy.vgg16 (replicate 7 ReLU)) 0%nat
  = ([], Raise AttributeError).
Proof.
  split.
  - apply (proj1 (model_adapter_errors Toy.class_names
                    (set_classifier Toy.vgg16 []) 0%nat)).
    simpl. lia.
  - apply (proj2 (model_adapter_errors Toy.class_names
                    (set_classifier Toy.vgg16 (replicate 7 ReLU)) 0%nat)).
    left. reflexivity.
Defined.

(** X4 at the VGG-shaped network. *)
Lemma model_adapter_frame_witness :
  exists vgg' fc,
    model_adapter Toy.class_names Toy.vgg16 0%nat
    = ([PrintInt 1000; PrintModel (linear_widths (classifier vgg'))],
       Ok (vgg', 1%nat)) /\
    nn_Linear 4096 4 0%nat = ([], Ok (fc, 1%nat)) /\
    classifier vgg' = removelast (classifier Toy.vgg16) ++ [fc] /\
    data <$> features vgg' = data <$> features Toy.vgg16 /\
    requires_grad <$> features vgg' = requires_grad <$> features Toy.vgg16 /\
    features_buffers vgg' = features_buffers Toy.vgg16 /\
    training vgg' = training Toy.vgg16.
Proof.
  exact (model_adapter_frame Toy.class_names Toy.vgg16 4096%Z 1000%Z
           (Toy.weight 5) (Toy.weight 6) 0%nat eq_refl).
Defined.

(** X5 at six requested images out of nine: the whole of the second,
    short batch is shown. *)
Lemma visualize_model_count_witness :
  exists l r,
    visualize_model Toy.image_datasets Toy.class_names Toy.vgg16 6 0%nat
    = (l, Ok r) /\
    Z.of_nat (images_displayed l) = 8%Z.
Proof.
  exact (visualize_model_count Toy.image_datasets Toy.class_names Toy.vgg16
           6 0%nat (toy_predictions_in_range (state_dict Toy.vgg16))
           toy_labels_in_range).
Defined.

(** X6 at the same run. *)
Lemma visualize_model_frame_witness :
  exists l v vgg' g',
    visualize_model Toy.image_datasets Toy.class_names Toy.vgg16 6 0%nat
    = (l, Ok (v, vgg', g')) /\
    v = PyNone /\ vgg' = Toy.vgg16.
Proof.
  destruct (visualize_model Toy.image_datasets Toy.class_names Toy.vgg16 6
              0%nat) as [l [[[v vgg'] g'] | e]] eqn:E.
  - exists l, v, vgg', g'. split; [reflexivity |].
    exact (visualize_model_frame Toy.image_datasets Toy.class_names
             Toy.vgg16 6 0%nat l v vgg' g' E).
  - vm_compute in E. discriminate E.
Defined.









(** X16 at the network whose only parameter is frozen. *)
Lemma train_model_untrainable_witness :
  trainable Toy.vgg16_frozen = false /\
  exists inputs labels rest,
    batches_of (Toy.image_datasets TRAIN) 0%nat = (inputs, labels) :: rest /\
    train_model Toy.image_datasets Toy.vgg16_frozen CrossEntropyLoss Toy.sgd
      Toy.scheduler 2 0%nat
    = ([PrintEpoch 0 2; Print rule;
        PrintBatch "Training batch" 0
          (Qnat (DataLoader_len (Toy.image_datasets TRAIN)) / 2)%Q;
        ZeroGrad; Forward true false (length inputs); Backward],
       Raise RuntimeError).
Proof.
  split; [reflexivity |].
  exact (train_model_untrainable Toy.image_datasets CrossEntropyLoss Toy.sgd
           Toy.vgg16_frozen Toy.scheduler 2 0%nat ltac:(discriminate)
           eq_refl ltac:(lia)).
Defined.
